(** * release_helper.py: the release gate of the icon repository

    A shallow embedding of [.github/release_helper.py] and the properties of
    its parts: the tag resolver (line 19), the trigger classifier
    [is_workflow_dispatch], the scoped checkout [git_checkout], the icon
    differ [get_new_icon_since], the greenlight evaluator [is_greenlight]
    and the module-level driver (lines 110-116).

    The script is effectful: it reads the environment and the clock, moves
    the HEAD of a git repository, lists a directory, prints, raises and
    exits. Everything it touches is a field of [World]; a Python computation
    is a function from the world to an outcome (a value or a raised
    exception) and the next world. *)

From stdpp Require Import gmap strings list pretty sorting.

(** String literals without the operators of [string_scope], which would
    shadow those of lists. *)
Declare Scope py_scope.
String Notation string String.string_of_list_byte String.list_byte_of_string : py_scope.
Open Scope py_scope.
Open Scope Z_scope.

(** ** The world the script runs in *)

(** Where HEAD points: at a branch, or directly at a commit (detached). *)
Inductive HEAD :=
| OnBranch (branch : string)
| DetachedAt (rev : string).

(** What [os.listdir] finds for the icons directory in some tree: the file
    names, or nothing when the directory does not exist there. *)
Abbreviation Listing := (option (list string)).

(** A [git.TagReference]: [t.name], [t.commit.committed_datetime] (an
    instant, as a number of seconds) and the icons directory of the commit
    the tag points to. *)
Record TagReference := mkTag {
  name : string;
  committed_datetime : Z;
  tag_tree : Listing
}.

(** The repository at [REPOSITORY]. [checkouts] records every run of
    [repo.git.checkout], oldest first, whether it succeeded or not. *)
Record Repo := mkRepo {
  head : HEAD;
  heads : gmap string Listing;
  tags : list TagReference;
  worktree : Listing;
  checkouts : list string
}.

(** Python list objects live in a store and are passed around by
    reference. *)
Abbreviation ref := nat.

Record World := mkWorld {
  environ : gmap string string;
  today : Z;
  repo : Repo;
  objs : ref → list string;
  next_obj : ref;
  stdout : list string
}.

Definition with_repo (r : Repo) (w : World) : World :=
  mkWorld (environ w) (today w) r (objs w) (next_obj w) (stdout w).

Definition with_stdout (out : list string) (w : World) : World :=
  mkWorld (environ w) (today w) (repo w) (objs w) (next_obj w) out.

Definition store (r : ref) (l : list string) (w : World) : World :=
  mkWorld (environ w) (today w) (repo w)
          (λ r', if decide (r' = r) then l else objs w r')
          (next_obj w) (stdout w).

(** ** Python computations *)

Inductive exn :=
| IndexError
| TypeError
| FileNotFoundError
| GitCommandError
| SystemExit (code : Z).

Inductive outcome (A : Type) :=
| Returned (a : A)
| Raised (e : exn).
Arguments Returned {A} a.
Arguments Raised {A} e.

Definition Py (A : Type) : Type := World → outcome A * World.

#[global] Instance Py_ret : MRet Py := λ A a w, (Returned a, w).

#[global] Instance Py_bind : MBind Py := λ A B f m w,
  match m w with
  | (Returned a, w') => f a w'
  | (Raised e, w') => (Raised e, w')
  end.

Definition raise {A} (e : exn) : Py A := λ w, (Raised e, w).

(** [try: body finally: cleanup]. The cleanup runs on both exits of the
    body; an exception of the cleanup replaces the outcome of the body. *)
Definition try_finally {A} (body : Py A) (cleanup : Py unit) : Py A := λ w,
  let (r, w1) := body w in
  match cleanup w1 with
  | (Returned _, w2) => (r, w2)
  | (Raised e, w2) => (Raised e, w2)
  end.

(** ** Builtins and library calls *)

Definition print (line : string) : Py unit := λ w,
  (Returned (), with_stdout (stdout w ++ [line]) w).

Definition exit {A} (code : Z) : Py A := raise (SystemExit code).

Definition getenv (key : string) : Py (option string) := λ w,
  (Returned (environ w !! key), w).

Definition datetime_now_day : Py Z := λ w, (Returned (today w), w).

(** [list(...)] builds a new list object. *)
Definition new_list (l : list string) : Py ref := λ w,
  (Returned (next_obj w),
   mkWorld (environ w) (today w) (repo w)
           (λ r', if decide (r' = next_obj w) then l else objs w r')
           (S (next_obj w)) (stdout w)).

Definition len (r : ref) : Py Z := λ w,
  (Returned (Z.of_nat (length (objs w r))), w).

(** [l[i]], with Python's negative indices. *)
Definition getitem {A} (l : list A) (i : Z) : Py A :=
  let n := Z.of_nat (length l) in
  let j := if i <? 0 then i + n else i in
  if (j <? 0) || (n <=? j) then raise IndexError
  else match l !! Z.to_nat j with
       | Some a => mret a
       | None => raise IndexError
       end.

(** The only directory of the world is the icons directory of the working
    tree. *)
Definition listdir (path : string) : Py (list string) := λ w,
  if decide (path = "../svgs") then
    match worktree (repo w) with
    | Some names => (Returned names, w)
    | None => (Raised FileNotFoundError, w)
    end
  else (Raised FileNotFoundError, w).

(** [sorted(l, key=key)]: a stable sort, elements with equal keys keep
    their order. *)
Section Sorted.
Context {A : Type} (key : A → Z).

Fixpoint insert_by (x : A) (l : list A) : list A :=
  match l with
  | [] => [x]
  | y :: l' => if key x <=? key y then x :: l else y :: insert_by x l'
  end.

Fixpoint sorted (l : list A) : list A :=
  match l with
  | [] => []
  | x :: l' => insert_by x (sorted l')
  end.

(** The order [sorted] sorts by. *)
Definition key_le (a b : A) : Prop := key a ≤ key b.
End Sorted.

(** The order line 19 sorts the tags by. *)
Abbreviation by_commit_time := (key_le committed_datetime).

(** *** GitPython *)

(** [git.Repo(path)]: a handle on the repository of the world. *)
Inductive RepoHandle := git_Repo (path : string).

Definition repo_tags (_ : RepoHandle) : Py (list TagReference) := λ w,
  (Returned (tags (repo w)), w).

(** [repo.head.is_detached] *)
Definition head_is_detached (_ : RepoHandle) : Py bool := λ w,
  (Returned (match head (repo w) with DetachedAt _ => true | OnBranch _ => false end), w).

(** [repo.head.ref.name]: GitPython's [head.ref] is the branch HEAD points
    to, and raises TypeError on a detached HEAD, which points to none. *)
Definition head_ref_name (_ : RepoHandle) : Py string := λ w,
  match head (repo w) with
  | OnBranch b => (Returned b, w)
  | DetachedAt _ => (Raised TypeError, w)
  end.

(** [repo.active_branch.name]: GitPython's [active_branch] returns
    [head.reference] and is documented to raise TypeError if HEAD is
    detached. *)
Definition active_branch_name (h : RepoHandle) : Py string := head_ref_name h.

(** What a name given to [git checkout] resolves to: a branch, else a tag
    (which detaches HEAD), else nothing. *)
Definition resolve (r : Repo) (rev : string) : option (HEAD * Listing) :=
  match heads r !! rev with
  | Some tree => Some (OnBranch rev, tree)
  | None =>
      match find (λ t, bool_decide (name t = rev)) (tags r) with
      | Some t => Some (DetachedAt rev, tag_tree t)
      | None => None
      end
  end.

(** [repo.git.checkout(rev)]. The icons directory becomes that of the tree
    checked out. This is what git does on a working tree that holds no
    untracked or uncommitted file; git keeps such files across a checkout,
    so the theorems that depend on a listing made after a checkout are
    stated for a working tree equal to the tip of its branch. *)
Definition git_checkout_cmd (_ : RepoHandle) (rev : string) : Py unit := λ w,
  let r := repo w in
  let log := checkouts r ++ [rev] in
  match resolve r rev with
  | Some (h, tree) =>
      (Returned (), with_repo (mkRepo h (heads r) (tags r) tree log) w)
  | None =>
      (Raised GitCommandError,
       with_repo (mkRepo (head r) (heads r) (tags r) (worktree r) log) w)
  end.

(** ** The script *)

Definition NEW_THRESHOLD : Z := 100.
Definition DAY_THRESHOLD : Z := 1.

Definition REPOSITORY : string := "../".

(** Line 19: [sorted(git.Repo(REPOSITORY).tags, key=...)[-2].name] *)
Definition last_release : Py string :=
  ts ← repo_tags (git_Repo REPOSITORY);
  t ← getitem (sorted committed_datetime ts) (-2);
  mret (name t).

Definition is_workflow_dispatch : Py bool :=
  github ← getenv "GITHUB_EVENT_NAME";
  if bool_decide (github = Some "workflow_dispatch") then mret true
  else
    gitlab ← getenv "CI_PIPELINE_SOURCE";
    if bool_decide (gitlab = Some "web") then mret true
    else mret false.

(** The context manager: the code before [yield], the body of the [with]
    statement in place of [yield], under [try ... finally]. *)
Definition git_checkout {A} (repo : RepoHandle) (rev : string) (body : Py A) : Py A :=
  detached ← head_is_detached repo;
  original_ref ← (if detached : bool then active_branch_name repo else head_ref_name repo);
  _ ← git_checkout_cmd repo rev;
  try_finally body (git_checkout_cmd repo original_ref).

Definition get_new_icon_since (last_version : string) : Py ref :=
  let icons_dir := "../svgs" in
  names ← listdir icons_dir;
  let current_icons : gset string := list_to_set names in
  _ ← print ("Checking out version " +:+ last_version);
  previous_icons ← git_checkout (git_Repo REPOSITORY) last_version
    (names' ← listdir icons_dir; mret (list_to_set names' : gset string));
  new_list (elements (current_icons ∖ previous_icons)).

Definition is_greenlight (result : ref) (manually_triggered : bool)
    (day_threshold new_threshold : Z) : Py bool :=
  if manually_triggered then
    _ ← print "🟢 Manually triggered workflow, skipped all check, greenlighting!";
    mret true
  else
    today_day ← datetime_now_day;
    if bool_decide (today_day ≠ day_threshold) then
      _ ← print ("🔴 Today is " +:+ pretty today_day +:+
                 ", which isn't the target release day " +:+
                 pretty day_threshold +:+ ".");
      mret false
    else
      n ← len result;
      if n <? new_threshold then
        n' ← len result;
        _ ← print ("🔴 Only " +:+ pretty n' +:+
                   " new icons found since the last release, below the threshold of " +:+
                   pretty new_threshold +:+ ".");
        mret false
      else
        _ ← print "🟢 Greenlight!";
        mret true.

(** Lines 19 and 110-116, in the order the module runs them. *)
Definition script : Py unit :=
  last_release ← last_release;
  result ← get_new_icon_since last_release;
  n ← len result;
  _ ← print ("🎉 There have been " +:+ pretty n +:+ " new icons since release!");
  manual ← is_workflow_dispatch;
  greenlight ← is_greenlight result manual DAY_THRESHOLD NEW_THRESHOLD;
  _ ← print ("🚦 " +:+ (if negb greenlight then "Not eligible for release!"
                        else "Eligible for release! Greenlight away!"));
  exit (if negb greenlight then 1 else 0).

(** The exit status of the interpreter: the code of [SystemExit], 1 for any
    other uncaught exception, 0 when the module runs to its end. *)
Definition exit_status {A} (r : outcome A) : Z :=
  match r with
  | Returned _ => 0
  | Raised (SystemExit code) => code
  | Raised _ => 1
  end.

Definition run (w : World) : Z * World :=
  let (r, w') := script w in (exit_status r, w').

(** ** Concrete worlds *)

Definition icons_now : list string := ["a.svg"; "b.svg"; "c.svg"].

(** The three tags of the scenario, in the order GitPython lists them (by
    name), with t1 = 10, t2 = 20, t3 = 30. *)
Definition release_tags : list TagReference :=
  [ mkTag "nightly" 30 (Some icons_now);
    mkTag "v2.10.0" 10 (Some ["a.svg"]);
    mkTag "v2.11.0" 20 (Some ["a.svg"]) ].

Definition repo_develop : Repo :=
  mkRepo (OnBranch "develop") {[ "develop" := Some icons_now ]}
         release_tags (Some icons_now) [].

(** A scheduled run on the 1st of the month, on branch develop. *)
Definition world_develop : World :=
  mkWorld ∅ 1 repo_develop (λ _, []) 0%nat [].

(** The same repository as a CI runner leaves it after checking out a
    commit: HEAD is detached. *)
Definition world_detached : World :=
  with_repo (mkRepo (DetachedAt "4f2a9c1") (heads repo_develop) release_tags
                    (Some icons_now) []) world_develop.

(** A repository that has only its nightly tag. *)
Definition world_one_tag : World :=
  with_repo (mkRepo (OnBranch "develop") (heads repo_develop)
                    [mkTag "nightly" 30 (Some icons_now)] (Some icons_now) [])
            world_develop.

(** A run started by hand from the GitLab web interface on the 15th. *)
Definition world_manual : World :=
  mkWorld {[ "CI_PIPELINE_SOURCE" := "web" ]} 15 repo_develop (λ _, []) 0%nat [].

(** The 1st of the month, [n] icons added on develop since v2.11.0, which
    had a.svg only; nothing untracked or uncommitted. *)
Definition icons_added (n : nat) : list string :=
  (λ i : nat, "icon" +:+ pretty i +:+ ".svg") <$> seq 0 n.

Definition world_release_day (n : nat) : World :=
  mkWorld ∅ 1
    (mkRepo (OnBranch "develop") {[ "develop" := Some ("a.svg" :: icons_added n) ]}
            [ mkTag "nightly" 30 (Some ("a.svg" :: icons_added n));
              mkTag "v2.11.0" 20 (Some ["a.svg"]) ]
            (Some ("a.svg" :: icons_added n)) [])
    (λ _, []) 0%nat [].

(** The last release predates the icons directory: the tree of v2.11.0
    has no [svgs]. *)
Definition world_no_icons_at_release : World :=
  with_repo (mkRepo (OnBranch "develop") (heads repo_develop)
                    [ mkTag "nightly" 30 (Some icons_now);
                      mkTag "v2.11.0" 20 None ]
                    (Some icons_now) [])
            world_develop.

(** The repository of [world_develop] with other tags. *)
Definition with_tags (ts : list TagReference) : World :=
  with_repo (mkRepo (OnBranch "develop") (heads repo_develop) ts (Some icons_now) [])
            world_develop.

(** Release v2.12.0 tagged on the commit the nightly tag points to: both
    tags have the same commit time. The tags are in the order GitPython
    lists them, by name. *)
Definition tags_by_name : list TagReference :=
  [ mkTag "nightly" 40 (Some icons_now);
    mkTag "v2.11.0" 20 (Some ["a.svg"]);
    mkTag "v2.12.0" 40 (Some icons_now) ].

(** The same tags once the nightly tag has moved on to a later commit. *)
Definition tags_nightly_ahead : list TagReference :=
  [ mkTag "nightly" 50 (Some icons_now);
    mkTag "v2.11.0" 20 (Some ["a.svg"]);
    mkTag "v2.12.0" 40 (Some icons_now) ].

(** ** The claims that do not hold as they are worded *)



(** The body of the [with] statement of [get_new_icon_since]. *)
Definition list_previous_icons : Py (gset string) :=
  names' ← listdir "../svgs"; mret (list_to_set names' : gset string).

(** The line the driver prints before it evaluates the greenlight. *)
Definition count_line (n : Z) : string :=
  "🎉 There have been " +:+ pretty n +:+ " new icons since release!".

(** The exceptions a stage of the script can raise are faults, never
    [SystemExit]. *)
Definition is_fault (e : exn) : Prop :=
  match e with SystemExit _ => False | _ => True end.

(** The environment of a run started by hand, as line 34 tests it. *)
Definition manually_dispatched (w : World) : Prop :=
  environ w !! "GITHUB_EVENT_NAME" = Some "workflow_dispatch" ∨
  environ w !! "CI_PIPELINE_SOURCE" = Some "web".

(** The last line the driver prints (line 114). *)
Definition verdict_line (greenlight : bool) : string :=
  "🚦 " +:+ (if negb greenlight then "Not eligible for release!"
            else "Eligible for release! Greenlight away!").

(** A repository with three branches and no uncommitted change. *)
Definition world_branches : World :=
  with_repo
    (mkRepo (OnBranch "develop")
            (<[ "develop" := Some icons_now ]>
               (<[ "main" := Some ["a.svg"] ]> {[ "feature" := Some ["a.svg"; "z.svg"] ]}))
            release_tags (Some icons_now) [])
    world_develop.

(** ** Computations step by step *)

Lemma bind_returned {A B} (m : Py A) (f : A → Py B) w a w' :
  m w = (Returned a, w') → (m ≫= f) w = f a w'.
Proof. unfold mbind, Py_bind. by intros ->. Qed.

Lemma bind_raised {A B} (m : Py A) (f : A → Py B) w e w' :
  m w = (Raised e, w') → (m ≫= f) w = (Raised e, w').
Proof. unfold mbind, Py_bind. by intros ->. Qed.

Lemma bind_inv {A B} (m : Py A) (f : A → Py B) w b w' :
  (m ≫= f) w = (Returned b, w') →
  ∃ a w1, m w = (Returned a, w1) ∧ f a w1 = (Returned b, w').
Proof.
  unfold mbind, Py_bind. destruct (m w) as [[a|e] w1]; [eauto | discriminate].
Qed.

Ltac py_unfold :=
  unfold mbind, Py_bind, mret, Py_ret, raise, print, len, getenv,
         datetime_now_day; simpl.

(** ** The greenlight evaluator *)

(** C2: a manually triggered run is greenlit whatever the list, the day and
    the thresholds are; the only effect is the line printed. *)
Theorem is_greenlight_manual (result : ref) (day_threshold new_threshold : Z) (w : World) :
  is_greenlight result true day_threshold new_threshold w =
    (Returned true,
     with_stdout
       (stdout w ++ ["🟢 Manually triggered workflow, skipped all check, greenlighting!"]) w).
Proof. reflexivity. Qed.

(** C1: without the manual trigger the evaluator returns a boolean, and it
    is true exactly when today is the threshold day and the list holds at
    least [new_threshold] icons. *)
Theorem is_greenlight_scheduled (result : ref) (day_threshold new_threshold : Z) (w : World) :
  ∃ b : bool,
    fst (is_greenlight result false day_threshold new_threshold w) = Returned b ∧
    (b = true ↔
       today w = day_threshold ∧ new_threshold ≤ Z.of_nat (length (objs w result))) ∧
    (today w ≠ day_threshold → b = false) ∧
    (today w = day_threshold →
       Z.of_nat (length (objs w result)) < new_threshold → b = false).
Proof.
  unfold is_greenlight. py_unfold.
  case_bool_decide as Hday; simpl.
  - exists false. split_and!; [done | | done | done].
    split; [done | tauto].
  - destruct (Z.ltb_spec (Z.of_nat (length (objs w result))) new_threshold); simpl.
    + exists false. split_and!; [done | | done | done].
      split; [done | lia].
    + exists true. split_and!; [done | | tauto | lia].
      split; [tauto | done].
Qed.

(** C10: two runs on the same day whose lists have the same length take the
    same decision and print the same lines, whatever the lists contain, and
    neither run changes any list object. *)
Theorem is_greenlight_length_only (result : ref) (manually_triggered : bool)
    (day_threshold new_threshold : Z) (w1 w2 : World) :
  today w1 = today w2 →
  length (objs w1 result) = length (objs w2 result) →
  let (d1, w1') := is_greenlight result manually_triggered day_threshold new_threshold w1 in
  let (d2, w2') := is_greenlight result manually_triggered day_threshold new_threshold w2 in
  d1 = d2 ∧
  (∃ out, stdout w1' = stdout w1 ++ out ∧ stdout w2' = stdout w2 ++ out) ∧
  objs w1' = objs w1 ∧ objs w2' = objs w2.
Proof.
  intros Hday Hlen. unfold is_greenlight.
  destruct manually_triggered; py_unfold.
  { split_and!; eauto. }
  rewrite Hday.
  case_bool_decide; simpl.
  { split_and!; eauto. }
  rewrite Hlen.
  destruct (_ <? _); simpl; rewrite ?Hlen; split_and!; eauto.
Qed.

Lemma is_greenlight_length_only_witness :
  let w1 := store 0 ["a.svg"; "b.svg"] world_develop in
  let w2 := store 0 ["y.svg"; "z.svg"] world_develop in
  objs w1 0%nat ≠ objs w2 0%nat ∧
  let (d1, w1') := is_greenlight 0 false 1 2 w1 in
  let (d2, w2') := is_greenlight 0 false 1 2 w2 in
  d1 = d2 ∧
  (∃ out, stdout w1' = stdout w1 ++ out ∧ stdout w2' = stdout w2 ++ out) ∧
  objs w1' = objs w1 ∧ objs w2' = objs w2.
Proof.
  split; [discriminate |].
  apply (is_greenlight_length_only 0 false 1 2
           (store 0 ["a.svg"; "b.svg"] world_develop)
           (store 0 ["y.svg"; "z.svg"] world_develop)); reflexivity.
Defined.

(** The decisions of the spec's examples. *)
Example is_greenlight_examples :
  let at_day (d : Z) (n : nat) := mkWorld ∅ d repo_develop (λ _, replicate n "x.svg") 0%nat [] in
  fst (is_greenlight 0 false 1 100 (at_day 15 1000%nat)) = Returned false ∧
  fst (is_greenlight 0 false 1 100 (at_day 1 99%nat)) = Returned false ∧
  fst (is_greenlight 0 false 1 100 (at_day 1 100%nat)) = Returned true ∧
  fst (is_greenlight 0 false 1 100 (at_day 1 150%nat)) = Returned true ∧
  fst (is_greenlight 0 true 1 100 (at_day 15 0%nat)) = Returned true.
Proof. by vm_compute. Qed.

(** ** The trigger classifier *)

(** C9: the classifier always returns, leaves the world as it is, and
    answers true exactly when GITHUB_EVENT_NAME is "workflow_dispatch" or
    CI_PIPELINE_SOURCE is "web". *)
Theorem is_workflow_dispatch_spec (w : World) :
  ∃ b : bool,
    is_workflow_dispatch w = (Returned b, w) ∧
    (b = true ↔
       environ w !! "GITHUB_EVENT_NAME" = Some "workflow_dispatch" ∨
       environ w !! "CI_PIPELINE_SOURCE" = Some "web").
Proof.
  unfold is_workflow_dispatch. py_unfold.
  case_bool_decide as Hgh; py_unfold.
  { exists true. split; [done | tauto]. }
  case_bool_decide as Hgl; py_unfold.
  { exists true. split; [done | tauto]. }
  exists false. split; [done |]. split; [done | tauto].
Qed.

Example is_workflow_dispatch_examples :
  fst (is_workflow_dispatch world_develop) = Returned false ∧
  fst (is_workflow_dispatch world_manual) = Returned true ∧
  fst (is_workflow_dispatch
         (mkWorld {[ "GITHUB_EVENT_NAME" := "workflow_dispatch" ]} 1 repo_develop (λ _, []) 0%nat []))
    = Returned true ∧
  fst (is_workflow_dispatch
         (mkWorld {[ "GITHUB_EVENT_NAME" := "push" ]} 1 repo_develop (λ _, []) 0%nat []))
    = Returned false.
Proof. by vm_compute. Qed.

(** ** The tag resolver *)

(** *** [sorted] returns a sorted, stable rearrangement *)

Section SortedFacts.
Context {A : Type} (key : A → Z).

#[local] Instance key_le_trans : Transitive (key_le key).
Proof. unfold key_le. intros a b c. lia. Qed.

Lemma insert_by_perm (x : A) (l : list A) : insert_by key x l ≡ₚ x :: l.
Proof.
  induction l as [|y l IH]; simpl; [done |].
  destruct (_ <=? _); [done |].
  by rewrite IH, Permutation_swap.
Qed.

Lemma sorted_perm (l : list A) : sorted key l ≡ₚ l.
Proof.
  induction l as [|x l IH]; simpl; [done |].
  by rewrite insert_by_perm, IH.
Qed.

Lemma sorted_length (l : list A) : length (sorted key l) = length l.
Proof. by rewrite sorted_perm. Qed.

Lemma insert_by_sorted (x : A) (l : list A) :
  StronglySorted (key_le key) l → StronglySorted (key_le key) (insert_by key x l).
Proof.
  induction 1 as [|y l Hl IH Hy]; simpl.
  { repeat constructor. }
  destruct (Z.leb_spec (key x) (key y)) as [Hxy|Hxy].
  - constructor; [by constructor |].
    constructor; [done |].
    eapply Forall_impl; [exact Hy |]. unfold key_le. intros z. simpl. lia.
  - constructor; [done |].
    rewrite insert_by_perm. constructor; [unfold key_le; lia | done].
Qed.

Lemma sorted_sorted (l : list A) : StronglySorted (key_le key) (sorted key l).
Proof.
  induction l as [|x l IH]; simpl; [constructor | by apply insert_by_sorted].
Qed.

(** Stability: the elements of any one key come out in the order they
    came in. *)
Lemma insert_by_filter (P : A → Prop) `{!∀ a, Decision (P a)} (x : A) (l : list A) :
  (∀ y, P x → P y → key x = key y) →
  filter P (insert_by key x l) = filter P (x :: l).
Proof.
  intros HP. induction l as [|y l IH]; simpl; [done |].
  destruct (Z.leb_spec (key x) (key y)) as [Hxy|Hxy]; [done |].
  rewrite !filter_cons in *.
  destruct (decide (P y)) as [Py|Py], (decide (P x)) as [Px|Px];
    rewrite IH; try done.
  specialize (HP y Px Py). lia.
Qed.

Lemma sorted_stable (k : Z) (l : list A) :
  filter (λ a, key a = k) (sorted key l) = filter (λ a, key a = k) l.
Proof.
  induction l as [|x l IH]; simpl; [done |].
  rewrite insert_by_filter by (intros; congruence).
  by rewrite !filter_cons, IH.
Qed.

(** With pairwise distinct keys the order of the input does not matter. *)
Lemma sorted_unique (l1 l2 : list A) :
  NoDup (key <$> l1) → l1 ≡ₚ l2 → sorted key l1 = sorted key l2.
Proof.
  intros Hnd Hp.
  apply (StronglySorted_unique_strong (key_le key)); try apply sorted_sorted.
  - intros x1 x2 H1 H2 H12 H21.
    rewrite sorted_perm in H1. rewrite sorted_perm, <-Hp in H2.
    assert (key x1 = key x2) as Hk by (unfold key_le in *; lia).
    apply list_elem_of_lookup in H1 as [i Hi], H2 as [j Hj].
    assert (i = j) as ->.
    { eapply NoDup_lookup; [exact Hnd | |];
        rewrite list_lookup_fmap; [by rewrite Hi | by rewrite Hj, Hk]. }
    congruence.
  - by rewrite !sorted_perm.
Qed.
End SortedFacts.

(** *** Negative indices *)

Lemma getitem_second_last {A} (l : list A) (w : World) :
  (2 ≤ length l)%nat →
  ∃ a, l !! (length l - 2)%nat = Some a ∧ getitem l (-2) w = (Returned a, w).
Proof.
  intros Hlen. unfold getitem. simpl.
  destruct (lookup_lt_is_Some_2 l (length l - 2)%nat) as [a Ha]; [lia |].
  exists a. split; [done |].
  replace (Z.to_nat (-2 + Z.of_nat (length l))) with (length l - 2)%nat by lia.
  rewrite Ha.
  destruct (Z.ltb_spec (-2 + Z.of_nat (length l)) 0); [lia |].
  destruct (Z.leb_spec (Z.of_nat (length l)) (-2 + Z.of_nat (length l))); [lia | done].
Qed.

Lemma getitem_short {A} (l : list A) (w : World) :
  (length l < 2)%nat → getitem l (-2) w = (Raised IndexError, w).
Proof.
  intros Hlen. unfold getitem. simpl.
  by destruct (Z.ltb_spec (-2 + Z.of_nat (length l)) 0); [| lia].
Qed.

Lemma last_release_eq (w : World) :
  last_release w =
    match getitem (sorted committed_datetime (tags (repo w))) (-2) w with
    | (Returned t, w') => (Returned (name t), w')
    | (Raised e, w') => (Raised e, w')
    end.
Proof. reflexivity. Qed.

(** *** The last release *)

(** Line 19 on two tags or more: it returns the name of the second-from-last
    element of the tags sorted ascending by commit time, by a stable sort.
    When the commit times are pairwise distinct, every ordering of the same
    tags gives the same release. *)
Lemma last_release_second_from_last (w : World) :
  (2 ≤ length (tags (repo w)))%nat →
  ∃ (s : list TagReference) (t : TagReference),
    s ≡ₚ tags (repo w) ∧
    StronglySorted by_commit_time s ∧
    (∀ k, filter (λ a, committed_datetime a = k) s =
          filter (λ a, committed_datetime a = k) (tags (repo w))) ∧
    s !! (length s - 2)%nat = Some t ∧
    last_release w = (Returned (name t), w) ∧
    (NoDup (committed_datetime <$> tags (repo w)) →
     ∀ w' : World, tags (repo w') ≡ₚ tags (repo w) →
       last_release w' = (Returned (name t), w')).
Proof.
  intros Hlen.
  set (s := sorted committed_datetime (tags (repo w))).
  destruct (getitem_second_last s w) as (t & Ht & Hget).
  { unfold s. by rewrite sorted_length. }
  exists s, t. split_and!.
  - apply sorted_perm.
  - apply sorted_sorted.
  - intros k. apply sorted_stable.
  - done.
  - rewrite last_release_eq. fold s. by rewrite Hget.
  - intros Hnd w' Hperm.
    rewrite last_release_eq.
    rewrite <-(sorted_unique committed_datetime _ _ Hnd) by done. fold s.
    destruct (getitem_second_last s w') as (t' & Ht' & ->).
    { unfold s. by rewrite sorted_length. }
    congruence.
Qed.

Lemma last_release_second_from_last_witness :
  ∃ (s : list TagReference) (t : TagReference),
    s ≡ₚ release_tags ∧
    StronglySorted by_commit_time s ∧
    (∀ k, filter (λ a, committed_datetime a = k) s =
          filter (λ a, committed_datetime a = k) release_tags) ∧
    s !! (length s - 2)%nat = Some t ∧
    last_release world_develop = (Returned (name t), world_develop) ∧
    (NoDup (committed_datetime <$> release_tags) →
     ∀ w' : World, tags (repo w') ≡ₚ release_tags →
       last_release w' = (Returned (name t), w')).
Proof. apply (last_release_second_from_last world_develop). simpl. lia. Defined.

(** The scenario of the spec: whatever order the three tags come in, the
    release is v2.11.0. *)
Lemma last_release_scenario (t1 t2 t3 : Z) (tree1 tree2 tree3 : Listing) (w : World) :
  t1 < t2 < t3 →
  tags (repo w) ≡ₚ
    [mkTag "v2.10.0" t1 tree1; mkTag "v2.11.0" t2 tree2; mkTag "nightly" t3 tree3] →
  last_release w = (Returned "v2.11.0", w).
Proof.
  intros Ht Hperm. rewrite last_release_eq.
  rewrite (sorted_unique committed_datetime (tags (repo w))
             [mkTag "v2.10.0" t1 tree1; mkTag "v2.11.0" t2 tree2; mkTag "nightly" t3 tree3]);
    [| | done].
  - simpl.
    destruct (Z.leb_spec t2 t3); [| lia]. simpl.
    destruct (Z.leb_spec t1 t2); [| lia]. done.
  - rewrite Hperm. simpl.
    rewrite !NoDup_cons, !not_elem_of_cons, NoDup_nil.
    split_and!; try lia; try done; apply not_elem_of_nil.
Qed.

Example last_release_world_develop :
  last_release world_develop = (Returned "v2.11.0", world_develop).
Proof. reflexivity. Qed.

(** C4: the release v2.12.0 is tagged on the commit the nightly tag points
    to, so the two tags have the same commit time. The sort leaves them in
    the order of the listing, which is by name: the sorted list ends with
    nightly, v2.12.0 and line 19 names the nightly tag as the last release,
    where lines 16-17 have nightly at [-1] and the last release at [-2].
    Once the nightly tag is on a later commit the same line names
    v2.12.0. *)
Example last_release_tied_with_nightly :
  name <$> sorted committed_datetime tags_by_name = ["v2.11.0"; "nightly"; "v2.12.0"] ∧
  last_release (with_tags tags_by_name) = (Returned "nightly", with_tags tags_by_name) ∧
  last_release (with_tags tags_nightly_ahead) =
    (Returned "v2.12.0", with_tags tags_nightly_ahead).
Proof. split_and!; reflexivity. Qed.

(** The tie in general: whenever the nightly tag and the newest release
    share a commit time and every other tag is older, a listing by name
    (nightly before any v-tag) makes line 19 return the nightly tag. *)
Lemma last_release_tie_keeps_listing_order (t t_old : Z) (tree1 tree2 tree3 : Listing) :
  t_old < t →
  fst (last_release
         (with_tags [mkTag "nightly" t tree1; mkTag "v2.11.0" t_old tree2;
                     mkTag "v2.12.0" t tree3])) = Returned "nightly".
Proof.
  intros Hlt. rewrite last_release_eq. simpl.
  destruct (Z.leb_spec t_old t); [| lia]. simpl.
  destruct (Z.leb_spec t t_old); [lia |]. simpl.
  destruct (Z.leb_spec t t); [| lia]. done.
Qed.

(** C7: with fewer than two tags the index [-2] is out of range: line 19
    raises IndexError, and the run ends with status 1 before it has printed
    anything or touched the repository. *)
Theorem last_release_too_few_tags (w : World) :
  (length (tags (repo w)) < 2)%nat →
  last_release w = (Raised IndexError, w) ∧ run w = (1, w).
Proof.
  intros Hlen.
  assert (last_release w = (Raised IndexError, w)) as Hlast.
  { rewrite last_release_eq, getitem_short; [done |].
    by rewrite sorted_length. }
  split; [done |].
  unfold run, script. by rewrite (bind_raised _ _ _ _ _ Hlast).
Qed.

Lemma last_release_too_few_tags_witness :
  last_release world_one_tag = (Raised IndexError, world_one_tag) ∧
  run world_one_tag = (1, world_one_tag).
Proof. apply (last_release_too_few_tags world_one_tag). simpl. lia. Defined.

Example last_release_no_tag :
  fst (last_release (with_tags [])) = Raised IndexError.
Proof. reflexivity. Qed.

(** ** The scoped checkout *)




(** On a branch, the entry of the context manager records the branch and
    checks out [rev]; the body runs under [try ... finally]. *)
Lemma git_checkout_on_branch {A} (h : RepoHandle) (rev b : string) (body : Py A) (w : World) :
  head (repo w) = OnBranch b →
  git_checkout h rev body w =
    (git_checkout_cmd h rev ≫= λ _, try_finally body (git_checkout_cmd h b)) w.
Proof.
  intros Hb. unfold git_checkout, mbind, Py_bind, head_is_detached, head_ref_name.
  rewrite Hb. simpl. by rewrite Hb.
Qed.

(** On a detached HEAD the entry reads [repo.active_branch], which raises:
    nothing is checked out and the body does not run. *)
Lemma git_checkout_detached {A} (h : RepoHandle) (rev c : string) (body : Py A) (w : World) :
  head (repo w) = DetachedAt c →
  git_checkout h rev body w = (Raised TypeError, w).
Proof.
  intros Hc.
  unfold git_checkout, mbind, Py_bind, head_is_detached, active_branch_name, head_ref_name.
  rewrite Hc. simpl. by rewrite Hc.
Qed.



(** A body that raises: the listing fails at the last release, the branch
    is checked out again, then the exception leaves the scope. *)
Example git_checkout_listing_fault_restores :
  let scope :=
    git_checkout (git_Repo REPOSITORY) "v2.11.0" list_previous_icons
      world_no_icons_at_release in
  fst scope = Raised FileNotFoundError ∧
  checkouts (repo (snd scope)) = ["v2.11.0"; "develop"] ∧
  head (repo (snd scope)) = OnBranch "develop".
Proof. by vm_compute. Qed.


(** C8: with a detached HEAD, as a CI runner leaves it, the scoped checkout
    raises TypeError while recording the original reference; the icon
    differ and the run fail with it. *)
Example git_checkout_detached_head :
  head (repo world_detached) = DetachedAt "4f2a9c1" ∧
  git_checkout (git_Repo REPOSITORY) "v2.11.0" list_previous_icons world_detached =
    (Raised TypeError, world_detached) ∧
  fst (get_new_icon_since "v2.11.0" world_detached) = Raised TypeError ∧
  fst (run world_detached) = 1.
Proof.
  split_and!; [done | | done | done].
  by apply (git_checkout_detached _ _ "4f2a9c1").
Qed.

(** ** The icon differ *)

Lemma listdir_icons (names : list string) (w : World) :
  worktree (repo w) = Some names → listdir "../svgs" w = (Returned names, w).
Proof. unfold listdir. simpl. by intros ->. Qed.

Lemma git_checkout_cmd_resolved (h : RepoHandle) (rev : string) (hd : HEAD)
    (tree : Listing) (w : World) :
  resolve (repo w) rev = Some (hd, tree) →
  git_checkout_cmd h rev w =
    (Returned (),
     with_repo (mkRepo hd (heads (repo w)) (tags (repo w)) tree
                       (checkouts (repo w) ++ [rev])) w).
Proof. unfold git_checkout_cmd. by intros ->. Qed.

Lemma last_release_fault (w w' : World) (e : exn) :
  last_release w = (Raised e, w') → is_fault e.
Proof.
  rewrite last_release_eq. unfold getitem, raise, mret, Py_ret.
  repeat case_match; intros; by simplify_eq.
Qed.

Lemma get_new_icon_since_fault (last_version : string) (w w' : World) (e : exn) :
  get_new_icon_since last_version w = (Raised e, w') → is_fault e.
Proof.
  unfold get_new_icon_since, git_checkout, try_finally, new_list, print,
    head_is_detached, active_branch_name, head_ref_name, git_checkout_cmd,
    listdir, mbind, Py_bind, mret, Py_ret.
  simpl. repeat (case_match; simplify_eq; simpl in *); intros; by simplify_eq.
Qed.


(** Conversely, the differ returns only in that situation. *)
Lemma listdir_returned (path : string) (names : list string) (w w' : World) :
  listdir path w = (Returned names, w') → worktree (repo w) = Some names ∧ w' = w.
Proof.
  unfold listdir. case_decide; [| done].
  destruct (worktree (repo w)); intros; by simplify_eq.
Qed.

Lemma git_checkout_cmd_returned (h : RepoHandle) (rev : string) (w w' : World) :
  git_checkout_cmd h rev w = (Returned (), w') →
  ∃ (hd : HEAD) (tree : Listing),
    resolve (repo w) rev = Some (hd, tree) ∧ worktree (repo w') = tree.
Proof.
  unfold git_checkout_cmd.
  destruct (resolve _ _) as [[hd tree]|]; intros; simplify_eq. eauto.
Qed.

Lemma git_checkout_returned {A} (h : RepoHandle) (rev : string) (body : Py A)
    (a : A) (w w3 : World) :
  git_checkout h rev body w = (Returned a, w3) →
  ∃ (b : string) (w1 w2 : World),
    head (repo w) = OnBranch b ∧
    git_checkout_cmd h rev w = (Returned (), w1) ∧
    body w1 = (Returned a, w2) ∧
    git_checkout_cmd h b w2 = (Returned (), w3).
Proof.
  destruct (head (repo w)) as [b|c] eqn:Hhead.
  2: { by rewrite (git_checkout_detached _ _ c). }
  rewrite (git_checkout_on_branch _ _ b) by done.
  intros ([] & w1 & Hco & Hscope)%bind_inv.
  unfold try_finally in Hscope.
  destruct (body w1) as [rb w2] eqn:Hbody.
  destruct (git_checkout_cmd h b w2) as [[[]|e] w3'] eqn:Hback; simplify_eq.
  by exists b, w1, w2.
Qed.

Lemma get_new_icon_since_returned (last_version : string) (result : ref) (w w' : World) :
  get_new_icon_since last_version w = (Returned result, w') →
  ∃ (current previous : list string) (b : string) (hd : HEAD),
    worktree (repo w) = Some current ∧
    head (repo w) = OnBranch b ∧
    resolve (repo w) last_version = Some (hd, Some previous) ∧
    objs w' result = elements (list_to_set current ∖ list_to_set previous : gset string).
Proof.
  unfold get_new_icon_since.
  intros (current & w0 & [Hcur ->]%listdir_returned & Hrun)%bind_inv.
  apply bind_inv in Hrun as ([] & wp & Hprint & Hrun).
  apply bind_inv in Hrun as (prev & w3 & Hscope & Hnew).
  apply git_checkout_returned in Hscope as (b & w1 & w2 & Hhead & Hco & Hbody & _).
  apply git_checkout_cmd_returned in Hco as (hd & tree & Hres & Htree).
  apply bind_inv in Hbody as (previous & w1' & [Hprev ->]%listdir_returned & Hset).
  unfold print in Hprint. unfold mret, Py_ret in Hset. unfold new_list in Hnew.
  simplify_eq. simpl in *.
  exists current, previous, b, hd. split_and!; [done | done | by rewrite Hres, Hprev |].
  by rewrite decide_True.
Qed.


(** The scenario of the spec: two new icons, b.svg and c.svg. *)
Example get_new_icon_since_scenario :
  ∃ (result : ref) (w' : World),
    get_new_icon_since "v2.11.0" world_develop = (Returned result, w') ∧
    objs w' result ≡ₚ ["b.svg"; "c.svg"] ∧
    len result w' = (Returned 2, w') ∧
    worktree (repo w') = Some icons_now.
Proof.
  eexists _, _. split; [by vm_compute |]. split_and!; [| done | done].
  vm_compute. apply Permutation_swap.
Qed.

(** ** The driver *)

Lemma is_workflow_dispatch_returns (w : World) :
  ∃ b : bool, is_workflow_dispatch w = (Returned b, w).
Proof.
  unfold is_workflow_dispatch. py_unfold.
  repeat (case_bool_decide; py_unfold); eauto.
Qed.

Lemma is_greenlight_returns (result : ref) (manual : bool) (d n : Z) (w : World) :
  ∃ (b : bool) (w' : World), is_greenlight result manual d n w = (Returned b, w').
Proof.
  unfold is_greenlight. destruct manual; py_unfold; [eauto |].
  case_bool_decide; simpl; [eauto |].
  destruct (_ <? _); simpl; eauto.
Qed.

(** The script from line 111 on, once the new icons are known. *)
Lemma script_after_diff (w w1 w2 : World) (release : string) (result : ref) :
  last_release w = (Returned release, w1) →
  get_new_icon_since release w1 = (Returned result, w2) →
  let n := Z.of_nat (length (objs w2 result)) in
  let w3 := with_stdout (stdout w2 ++ [count_line n]) w2 in
  ∃ (manual greenlight : bool) (w4 : World),
    is_workflow_dispatch w3 = (Returned manual, w3) ∧
    is_greenlight result manual 1 100 w3 = (Returned greenlight, w4) ∧
    fst (run w) = if greenlight then 0 else 1.
Proof.
  intros Hrel Hdiff n w3.
  destruct (is_workflow_dispatch_returns w3) as [manual Hman].
  destruct (is_greenlight_returns result manual 1 100 w3) as (greenlight & w4 & Hgreen).
  exists manual, greenlight, w4. split_and!; [done | done |].
  unfold run, script.
  rewrite (bind_returned _ _ _ _ _ Hrel), (bind_returned _ _ _ _ _ Hdiff).
  erewrite bind_returned by reflexivity.
  erewrite bind_returned by reflexivity.
  fold (count_line n). fold w3.
  rewrite (bind_returned _ _ _ _ _ Hman).
  unfold DAY_THRESHOLD, NEW_THRESHOLD.
  rewrite (bind_returned _ _ _ _ _ Hgreen).
  by destruct greenlight.
Qed.

(** C6: the run ends with status 0 or 1, and with 0 exactly when the driver
    gets as far as the greenlight evaluation, called with the thresholds
    day = 1 and count = 100, and the decision is true. *)
Theorem run_exit_status (w : World) :
  (fst (run w) = 0 ∨ fst (run w) = 1) ∧
  (fst (run w) = 0 ↔
     ∃ (release : string) (w1 : World) (result : ref) (w2 : World)
       (manual : bool) (w4 : World),
       let w3 := with_stdout
                   (stdout w2 ++ [count_line (Z.of_nat (length (objs w2 result)))]) w2 in
       last_release w = (Returned release, w1) ∧
       get_new_icon_since release w1 = (Returned result, w2) ∧
       is_workflow_dispatch w3 = (Returned manual, w3) ∧
       is_greenlight result manual 1 100 w3 = (Returned true, w4)).
Proof.
  destruct (last_release w) as [[release|e] w1] eqn:Hrel.
  2: { assert (fst (run w) = 1) as ->.
       { unfold run, script. rewrite (bind_raised _ _ _ _ _ Hrel).
         apply last_release_fault in Hrel. by destruct e. }
       split; [by right |]. split; [done |].
       by intros (? & ? & ? & ? & ? & ? & ? & _). }
  destruct (get_new_icon_since release w1) as [[result|e] w2] eqn:Hdiff.
  2: { assert (fst (run w) = 1) as ->.
       { unfold run, script.
         rewrite (bind_returned _ _ _ _ _ Hrel), (bind_raised _ _ _ _ _ Hdiff).
         apply get_new_icon_since_fault in Hdiff. by destruct e. }
       split; [by right |]. split; [done |].
       intros (? & ? & ? & ? & ? & ? & ? & ? & _). simplify_eq. congruence. }
  destruct (script_after_diff w w1 w2 release result Hrel Hdiff)
    as (manual & greenlight & w4 & Hman & Hgreen & ->).
  split; [destruct greenlight; auto |]. split.
  - intros Hzero. destruct greenlight; [| done].
    by exists release, w1, result, w2, manual, w4.
  - intros (release' & w1' & result' & w2' & manual' & w4' & ? & ? & Hman' & Hgreen').
    simplify_eq. cbv zeta in *.
    assert (manual' = manual) as -> by congruence.
    by assert (greenlight = true) as -> by congruence.
Qed.

Example run_examples :
  fst (run world_develop) = 1 ∧
  fst (run world_manual) = 0 ∧
  fst (run (world_release_day 100)) = 0 ∧
  fst (run (world_release_day 99)) = 1 ∧
  fst (run world_one_tag) = 1.
Proof. by vm_compute. Qed.

Example run_release_day_output :
  stdout (snd (run (world_release_day 100))) =
    [ "Checking out version v2.11.0";
      "🎉 There have been 100 new icons since release!";
      "🟢 Greenlight!";
      "🚦 Eligible for release! Greenlight away!" ].
Proof. by vm_compute. Qed.

(** * Further properties of the script *)

(** ** The tag resolver picks the second newest tag *)

Lemma last_release_world (w w' : World) (r : outcome string) :
  last_release w = (r, w') → w' = w.
Proof.
  rewrite last_release_eq. unfold getitem, raise, mret, Py_ret.
  repeat case_match; intros; by simplify_eq.
Qed.

Lemma split_last_two {A} (l : list A) :
  (2 ≤ length l)%nat → ∃ rest a b, l = rest ++ [a; b].
Proof.
  destruct l as [|b l _] using rev_ind; [simpl; lia |].
  destruct l as [|a l _] using rev_ind; [simpl; lia |].
  intros _. exists l, a, b. by rewrite <-app_assoc.
Qed.

Lemma getitem_last_two {A} (rest : list A) (a b : A) (w : World) :
  getitem (rest ++ [a; b]) (-2) w = (Returned a, w).
Proof.
  destruct (getitem_second_last (rest ++ [a; b]) w) as (a' & Ha & ->).
  { rewrite length_app. simpl. lia. }
  rewrite list_lookup_middle in Ha; [by simplify_eq |].
  rewrite length_app. simpl. lia.
Qed.

(** Line 19 reads the tags and changes nothing. With two tags or more, the
    release it names has one tag at least as new as itself, and every other
    tag is at most as new; with pairwise distinct commit times, exactly one
    tag is newer than the release. *)
Theorem last_release_second_newest (w : World) :
  (2 ≤ length (tags (repo w)))%nat →
  ∃ (rest : list TagReference) (t newest : TagReference),
    tags (repo w) ≡ₚ rest ++ [t; newest] ∧
    Forall (λ u, committed_datetime u ≤ committed_datetime t) rest ∧
    committed_datetime t ≤ committed_datetime newest ∧
    last_release w = (Returned (name t), w) ∧
    (NoDup (committed_datetime <$> tags (repo w)) →
       Forall (λ u, committed_datetime u < committed_datetime t) rest ∧
       committed_datetime t < committed_datetime newest).
Proof.
  intros Hlen.
  destruct (split_last_two (sorted committed_datetime (tags (repo w))))
    as (rest & t & newest & Hs).
  { by rewrite sorted_length. }
  pose proof (sorted_sorted committed_datetime (tags (repo w))) as Hsorted.
  pose proof (sorted_perm committed_datetime (tags (repo w))) as Hperm.
  rewrite Hs in Hsorted, Hperm.
  apply StronglySorted_app in Hsorted as (Hrest & _ & Hlast).
  apply StronglySorted_cons in Hlast as [Hnew _].
  assert (Forall (λ u, committed_datetime u ≤ committed_datetime t) rest) as Hle.
  { apply Forall_forall. intros u Hu. apply (Hrest u t Hu). by left. }
  assert (committed_datetime t ≤ committed_datetime newest) as Htn.
  { rewrite Forall_singleton in Hnew. exact Hnew. }
  exists rest, t, newest. split_and!; [done | done | done | |].
  - rewrite last_release_eq, Hs. by rewrite getitem_last_two.
  - intros Hnd. rewrite <-Hperm, fmap_app in Hnd. simpl in Hnd.
    apply NoDup_app in Hnd as (_ & Hdisj & Hnd2).
    apply NoDup_cons in Hnd2 as [Hneq _]. rewrite list_elem_of_singleton in Hneq.
    split; [| lia].
    apply Forall_forall. intros u Hu.
    rewrite Forall_forall in Hle. specialize (Hle u Hu).
    assert (committed_datetime u ≠ committed_datetime t); [| lia].
    intros Heq. apply (Hdisj (committed_datetime u)).
    + by apply list_elem_of_fmap_2.
    + rewrite Heq. by left.
Qed.

Lemma last_release_second_newest_witness :
  ∃ (rest : list TagReference) (t newest : TagReference),
    release_tags ≡ₚ rest ++ [t; newest] ∧
    Forall (λ u, committed_datetime u ≤ committed_datetime t) rest ∧
    committed_datetime t ≤ committed_datetime newest ∧
    last_release world_develop = (Returned (name t), world_develop) ∧
    (NoDup (committed_datetime <$> release_tags) →
       Forall (λ u, committed_datetime u < committed_datetime t) rest ∧
       committed_datetime t < committed_datetime newest).
Proof. apply (last_release_second_newest world_develop). simpl. lia. Defined.

(** ** The greenlight evaluator, as a function of day and count *)

Lemma is_workflow_dispatch_manual (w w' : World) (manual : bool) :
  is_workflow_dispatch w = (Returned manual, w') →
  w' = w ∧ (manual = true ↔ manually_dispatched w).
Proof.
  unfold is_workflow_dispatch, manually_dispatched. py_unfold.
  repeat (case_bool_decide; py_unfold); intros; simplify_eq;
    (split; [done |]); split; try done; tauto.
Qed.

Lemma is_greenlight_decision (result : ref) (manual : bool) (d n : Z) (w : World) :
  fst (is_greenlight result manual d n w) =
    Returned (manual ||
              (bool_decide (today w = d) && (n <=? Z.of_nat (length (objs w result))))).
Proof.
  unfold is_greenlight. destruct manual; py_unfold; [done |].
  case_bool_decide as Hne; simpl.
  { by rewrite bool_decide_false. }
  rewrite bool_decide_true by done. simpl.
  destruct (Z.ltb_spec (Z.of_nat (length (objs w result))) n);
    destruct (Z.leb_spec n (Z.of_nat (length (objs w result)))); simpl; done || lia.
Qed.

(** The evaluator prints exactly one line and has no other effect: the
    environment, the clock, the repository and the list objects are as
    before. *)
Theorem is_greenlight_prints_one_line (result : ref) (manual : bool) (d n : Z)
    (w w' : World) (r : outcome bool) :
  is_greenlight result manual d n w = (r, w') →
  ∃ line : string, w' = with_stdout (stdout w ++ [line]) w.
Proof.
  unfold is_greenlight. destruct manual; py_unfold.
  { intros; simplify_eq; eauto. }
  case_bool_decide; simpl.
  { intros; simplify_eq; eauto. }
  destruct (_ <? _); simpl; intros; simplify_eq; eauto.
Qed.

Lemma is_greenlight_prints_one_line_witness :
  ∃ line : string,
    snd (is_greenlight 0 false 1 100 world_develop) =
      with_stdout (stdout world_develop ++ [line]) world_develop.
Proof.
  apply (is_greenlight_prints_one_line 0 false 1 100 world_develop _
           (fst (is_greenlight 0 false 1 100 world_develop))).
  reflexivity.
Defined.

(** A greenlight survives more icons and a lower count threshold: on the
    same day, a decision that is true for one list is true for every list
    at least as long and every threshold at most as high. *)
Theorem is_greenlight_monotone (result : ref) (manual : bool) (d n n' : Z) (w w' : World) :
  today w = today w' →
  (length (objs w result) ≤ length (objs w' result))%nat →
  n' ≤ n →
  fst (is_greenlight result manual d n w) = Returned true →
  fst (is_greenlight result manual d n' w') = Returned true.
Proof.
  intros Hday Hlen Hn. rewrite !is_greenlight_decision, Hday.
  intros [= Htrue]. f_equal.
  destruct manual; [done |]. simpl in *.
  apply andb_prop in Htrue as [-> Hle]. simpl.
  apply Z.leb_le in Hle. apply Z.leb_le. lia.
Qed.

Lemma is_greenlight_monotone_witness :
  fst (is_greenlight 0 false 1 2
         (store 0 ["a.svg"; "b.svg"; "c.svg"; "d.svg"] world_develop)) = Returned true.
Proof.
  apply (is_greenlight_monotone 0 false 1 3 2
           (store 0 ["a.svg"; "b.svg"; "c.svg"] world_develop)
           (store 0 ["a.svg"; "b.svg"; "c.svg"; "d.svg"] world_develop));
    [reflexivity | simpl; lia | lia | reflexivity].
Defined.

(** ** The icon differ: effects and faults *)

(** The run of the differ when every step succeeds, with the world it
    leaves. *)
Lemma get_new_icon_since_run (last_version b : string) (current previous : list string)
    (hd : HEAD) (tree : Listing) (w : World) :
  worktree (repo w) = Some current →
  head (repo w) = OnBranch b →
  heads (repo w) !! b = Some tree →
  resolve (repo w) last_version = Some (hd, Some previous) →
  get_new_icon_since last_version w =
    (Returned (next_obj w),
     mkWorld (environ w) (today w)
       (mkRepo (OnBranch b) (heads (repo w)) (tags (repo w)) tree
               (checkouts (repo w) ++ [last_version; b]))
       (λ r', if decide (r' = next_obj w)
              then elements (list_to_set current ∖ list_to_set previous : gset string)
              else objs w r')
       (S (next_obj w))
       (stdout w ++ ["Checking out version " +:+ last_version])).
Proof.
  intros Hcur Hb Htree Hres.
  unfold get_new_icon_since.
  rewrite (bind_returned _ _ _ _ _ (listdir_icons _ _ Hcur)).
  erewrite bind_returned by reflexivity.
  set (w0 := with_stdout _ w).
  rewrite (bind_returned _ _ w0 (list_to_set previous)
             (with_repo (mkRepo (OnBranch b) (heads (repo w)) (tags (repo w)) tree
                           ((checkouts (repo w) ++ [last_version]) ++ [b])) w0)).
  { unfold new_list. simpl. by rewrite <-app_assoc. }
  rewrite (git_checkout_on_branch _ _ b) by done.
  erewrite bind_returned by (by apply git_checkout_cmd_resolved).
  unfold try_finally.
  erewrite bind_returned by (by apply listdir_icons).
  unfold mret, Py_ret.
  erewrite git_checkout_cmd_resolved; [done |].
  unfold resolve. simpl. by rewrite Htree.
Qed.

(** What a successful run of the differ changes, when the branch HEAD is on
    has a commit: it prints one line, runs two checkouts (the release, then
    the branch it started from) and returns a list object that did not
    exist before. The environment, the clock, the branches, the tags and
    every other list object are as before, and HEAD is where it was. *)
Theorem get_new_icon_since_effects (last_version : string) (result : ref) (w w' : World) :
  (∀ b, head (repo w) = OnBranch b → is_Some (heads (repo w) !! b)) →
  get_new_icon_since last_version w = (Returned result, w') →
  ∃ b : string,
    head (repo w) = OnBranch b ∧ head (repo w') = OnBranch b ∧
    checkouts (repo w') = checkouts (repo w) ++ [last_version; b] ∧
    stdout w' = stdout w ++ ["Checking out version " +:+ last_version] ∧
    result = next_obj w ∧ next_obj w' = S (next_obj w) ∧
    (∀ r, r ≠ result → objs w' r = objs w r) ∧
    environ w' = environ w ∧ today w' = today w ∧
    heads (repo w') = heads (repo w) ∧ tags (repo w') = tags (repo w).
Proof.
  intros Hborn Hrun.
  destruct (get_new_icon_since_returned _ _ _ _ Hrun)
    as (current & previous & b & hd & Hcur & Hb & Hres & _).
  destruct (Hborn b Hb) as [tree Htree].
  rewrite (get_new_icon_since_run _ _ _ _ _ _ _ Hcur Hb Htree Hres) in Hrun.
  simplify_eq. simpl. exists b. split_and!; try done.
  intros r Hr. by rewrite decide_False.
Qed.

Lemma get_new_icon_since_effects_witness :
  ∃ b : string,
    head (repo world_develop) = OnBranch b ∧
    head (repo (snd (get_new_icon_since "v2.11.0" world_develop))) = OnBranch b ∧
    checkouts (repo (snd (get_new_icon_since "v2.11.0" world_develop))) =
      checkouts (repo world_develop) ++ ["v2.11.0"; b] ∧
    stdout (snd (get_new_icon_since "v2.11.0" world_develop)) =
      stdout world_develop ++ ["Checking out version " +:+ "v2.11.0"] ∧
    0%nat = next_obj world_develop ∧
    next_obj (snd (get_new_icon_since "v2.11.0" world_develop)) = S (next_obj world_develop) ∧
    (∀ r, r ≠ 0%nat →
       objs (snd (get_new_icon_since "v2.11.0" world_develop)) r = objs world_develop r) ∧
    environ (snd (get_new_icon_since "v2.11.0" world_develop)) = environ world_develop ∧
    today (snd (get_new_icon_since "v2.11.0" world_develop)) = today world_develop ∧
    heads (repo (snd (get_new_icon_since "v2.11.0" world_develop))) =
      heads (repo world_develop) ∧
    tags (repo (snd (get_new_icon_since "v2.11.0" world_develop))) = tags (repo world_develop).
Proof.
  apply (get_new_icon_since_effects "v2.11.0" 0 world_develop
           (snd (get_new_icon_since "v2.11.0" world_develop))).
  - intros b [= <-]. by vm_compute; eauto.
  - reflexivity.
Defined.



Lemma difference_length (current previous : list string) :
  (length (elements (list_to_set current ∖ list_to_set previous : gset string))
   ≤ length current)%nat.
Proof.
  apply submseteq_length, NoDup_submseteq; [apply NoDup_elements |].
  intros x. rewrite elem_of_elements, elem_of_difference, elem_of_list_to_set. tauto.
Qed.

(** On a working tree that holds nothing untracked or uncommitted (the
    icons directory is that of the branch tip), the count never exceeds the
    number of files in the icons directory, and the returned list is empty
    exactly when every file now in the directory was already there at the
    last release: files removed since then are not counted. *)
Theorem get_new_icon_since_only_additions (last_version b : string) (result : ref)
    (w w' : World) :
  head (repo w) = OnBranch b →
  heads (repo w) !! b = Some (worktree (repo w)) →
  get_new_icon_since last_version w = (Returned result, w') →
  ∃ (current previous : list string) (hd : HEAD),
    worktree (repo w) = Some current ∧
    resolve (repo w) last_version = Some (hd, Some previous) ∧
    (length (objs w' result) ≤ length current)%nat ∧
    (objs w' result = [] ↔ ∀ x, x ∈ current → x ∈ previous).
Proof.
  intros _ _ Hrun.
  destruct (get_new_icon_since_returned _ _ _ _ Hrun)
    as (current & previous & b' & hd & Hcur & _ & Hres & ->).
  exists current, previous, hd. split_and!; [done | done | |].
  - apply difference_length.
  - rewrite elements_empty_iff. split.
    + intros Hempty x Hx. destruct (decide (x ∈ previous)) as [|Hnot]; [done |].
      exfalso. apply (not_elem_of_empty (C := gset string) x). rewrite <-Hempty.
      by rewrite elem_of_difference, !elem_of_list_to_set.
    + intros Hsub. apply elem_of_equiv_empty. intros x.
      rewrite elem_of_difference, !elem_of_list_to_set. intros [Hx Hnot]. auto.
Qed.

Lemma get_new_icon_since_only_additions_witness :
  ∃ (current previous : list string) (hd : HEAD),
    worktree (repo world_develop) = Some current ∧
    resolve (repo world_develop) "v2.11.0" = Some (hd, Some previous) ∧
    (length (objs (snd (get_new_icon_since "v2.11.0" world_develop)) 0) ≤ length current)%nat ∧
    (objs (snd (get_new_icon_since "v2.11.0" world_develop)) 0 = [] ↔
       ∀ x, x ∈ current → x ∈ previous).
Proof.
  apply (get_new_icon_since_only_additions "v2.11.0" "develop" 0 world_develop
           (snd (get_new_icon_since "v2.11.0" world_develop)));
    [reflexivity | by vm_compute | reflexivity].
Defined.

(** Without an icons directory in the working tree the differ raises
    FileNotFoundError at once: nothing is printed and nothing is checked
    out. *)
Theorem get_new_icon_since_no_icons_dir (last_version : string) (w : World) :
  worktree (repo w) = None →
  get_new_icon_since last_version w = (Raised FileNotFoundError, w).
Proof.
  intros Hnone. unfold get_new_icon_since.
  apply bind_raised. unfold listdir. simpl. by rewrite Hnone.
Qed.

Lemma get_new_icon_since_no_icons_dir_witness :
  let w := with_repo (mkRepo (OnBranch "develop") (heads repo_develop)
                             release_tags None []) world_develop in
  get_new_icon_since "v2.11.0" w = (Raised FileNotFoundError, w).
Proof.
  apply (get_new_icon_since_no_icons_dir "v2.11.0"
           (with_repo (mkRepo (OnBranch "develop") (heads repo_develop)
                              release_tags None []) world_develop)).
  reflexivity.
Defined.



(** A release whose tree has no icons directory, checked out from a
    working tree that holds nothing untracked or uncommitted: the listing
    raises inside the scope, the branch is checked out again, and
    FileNotFoundError leaves the function with HEAD back on the branch, the
    icons directory as before and no list created. *)
Theorem get_new_icon_since_missing_at_release (last_version b : string)
    (current : list string) (hd : HEAD) (w : World) :
  worktree (repo w) = Some current →
  head (repo w) = OnBranch b →
  heads (repo w) !! b = Some (Some current) →
  resolve (repo w) last_version = Some (hd, None) →
  get_new_icon_since last_version w =
    (Raised FileNotFoundError,
     mkWorld (environ w) (today w)
       (mkRepo (OnBranch b) (heads (repo w)) (tags (repo w)) (Some current)
               (checkouts (repo w) ++ [last_version; b]))
       (objs w) (next_obj w)
       (stdout w ++ ["Checking out version " +:+ last_version])).
Proof.
  intros Hcur Hb Htree Hres. unfold get_new_icon_since.
  rewrite (bind_returned _ _ _ _ _ (listdir_icons _ _ Hcur)).
  erewrite bind_returned by reflexivity.
  set (w0 := with_stdout _ w).
  rewrite (bind_raised _ _ w0 FileNotFoundError
             (with_repo (mkRepo (OnBranch b) (heads (repo w)) (tags (repo w))
                           (Some current)
                           ((checkouts (repo w) ++ [last_version]) ++ [b])) w0)).
  { unfold with_repo. simpl. by rewrite <-app_assoc. }
  rewrite (git_checkout_on_branch _ _ b) by done.
  erewrite bind_returned by (by apply git_checkout_cmd_resolved).
  unfold try_finally.
  erewrite bind_raised; cycle 1.
  { unfold listdir. simpl. reflexivity. }
  erewrite git_checkout_cmd_resolved; [done |].
  unfold resolve. simpl. by rewrite Htree.
Qed.

Lemma get_new_icon_since_missing_at_release_witness :
  get_new_icon_since "v2.11.0" world_no_icons_at_release =
    (Raised FileNotFoundError,
     mkWorld (environ world_no_icons_at_release) (today world_no_icons_at_release)
       (mkRepo (OnBranch "develop") (heads (repo world_no_icons_at_release))
               (tags (repo world_no_icons_at_release)) (Some icons_now)
               (checkouts (repo world_no_icons_at_release) ++ ["v2.11.0"; "develop"]))
       (objs world_no_icons_at_release) (next_obj world_no_icons_at_release)
       (stdout world_no_icons_at_release ++ ["Checking out version " +:+ "v2.11.0"])).
Proof.
  apply (get_new_icon_since_missing_at_release "v2.11.0" "develop" icons_now
           (DetachedAt "v2.11.0") world_no_icons_at_release);
    reflexivity.
Defined.

(** ** Scoped checkouts nest *)

Lemma git_checkout_cmd_branch_eq (h : RepoHandle) (b : string) (tree : Listing) (w : World) :
  heads (repo w) !! b = Some tree →
  git_checkout_cmd h b w =
    (Returned (),
     with_repo (mkRepo (OnBranch b) (heads (repo w)) (tags (repo w)) tree
                       (checkouts (repo w) ++ [b])) w).
Proof.
  intros Hb. apply git_checkout_cmd_resolved. unfold resolve. by rewrite Hb.
Qed.

(** From branch [b], on a working tree that holds nothing untracked or
    uncommitted, a scope on branch [c] around a scope on branch [d] around
    a body that leaves the repository alone: the body runs with HEAD on
    [d], the scopes are left innermost first ([c] is checked out again,
    then [b]), the outcome of the body is the outcome of the whole, and the
    working tree ends as it started, at the tip of [b]. *)
Theorem git_checkout_nested {A} (h : RepoHandle) (b c d : string) (tb tc td : Listing)
    (body : Py A) (w : World) :
  head (repo w) = OnBranch b →
  worktree (repo w) = tb →
  heads (repo w) !! b = Some tb →
  heads (repo w) !! c = Some tc →
  heads (repo w) !! d = Some td →
  (∀ w0, repo (snd (body w0)) = repo w0) →
  let w1 := with_repo (mkRepo (OnBranch d) (heads (repo w)) (tags (repo w)) td
                              (checkouts (repo w) ++ [c; d])) w in
  let scope := git_checkout h c (git_checkout h d body) w in
  fst scope = fst (body w1) ∧
  head (repo (snd scope)) = OnBranch b ∧
  worktree (repo (snd scope)) = tb ∧
  checkouts (repo (snd scope)) = checkouts (repo w) ++ [c; d; c; b].
Proof.
  intros Hb _ Htb Htc Htd Hbody w1 scope.
  assert (scope =
            (fst (body w1),
             with_repo (mkRepo (OnBranch b) (heads (repo w)) (tags (repo w)) tb
                               (checkouts (repo w) ++ [c; d; c; b]))
                       (snd (body w1)))) as ->; [| done].
  subst scope.
  rewrite (git_checkout_on_branch _ _ b) by done.
  erewrite bind_returned by (by apply git_checkout_cmd_branch_eq).
  unfold try_finally at 1.
  rewrite (git_checkout_on_branch _ _ c) by done.
  erewrite bind_returned by (by apply git_checkout_cmd_branch_eq).
  unfold try_finally. simpl.
  replace (with_repo _ (with_repo _ w)) with w1.
  2: { unfold w1, with_repo. simpl. by rewrite <-app_assoc. }
  pose proof (Hbody w1) as Hrepo.
  destruct (body w1) as [rb w2]. simpl in Hrepo.
  erewrite (git_checkout_cmd_branch_eq h c tc w2) by (by rewrite Hrepo).
  erewrite git_checkout_cmd_branch_eq by (simpl; by rewrite Hrepo).
  simpl. rewrite Hrepo. simpl.
  unfold with_repo. simpl. by rewrite <-!app_assoc.
Qed.

Lemma git_checkout_nested_witness :
  let scope :=
    git_checkout (git_Repo REPOSITORY) "main"
      (git_checkout (git_Repo REPOSITORY) "feature" (listdir "../svgs")) world_branches in
  fst scope = Returned ["a.svg"; "z.svg"] ∧
  head (repo (snd scope)) = OnBranch "develop" ∧
  worktree (repo (snd scope)) = Some icons_now ∧
  checkouts (repo (snd scope)) = ["main"; "feature"; "main"; "develop"].
Proof.
  apply (git_checkout_nested (git_Repo REPOSITORY) "develop" "main" "feature"
           (Some icons_now) (Some ["a.svg"]) (Some ["a.svg"; "z.svg"])
           (listdir "../svgs") world_branches); try reflexivity.
  intros w0. unfold listdir. simpl. by destruct (worktree (repo w0)).
Defined.

(** ** The driver, end to end *)

Lemma is_greenlight_world (result : ref) (manual : bool) (d n : Z) (w : World) :
  ∃ line : string,
    snd (is_greenlight result manual d n w) = with_stdout (stdout w ++ [line]) w.
Proof.
  unfold is_greenlight. destruct manual; py_unfold; [eauto |].
  case_bool_decide; simpl; [eauto |].
  destruct (_ <? _); simpl; eauto.
Qed.

(** Whatever its outcome, the differ leaves the environment and the clock
    alone and prints at most its one line. *)
Lemma get_new_icon_since_frame (last_version : string) (w w' : World) (r : outcome ref) :
  get_new_icon_since last_version w = (r, w') →
  environ w' = environ w ∧ today w' = today w ∧
  (stdout w' = stdout w ∨
   stdout w' = stdout w ++ ["Checking out version " +:+ last_version]).
Proof.
  unfold get_new_icon_since, git_checkout, try_finally, new_list, print,
    head_is_detached, active_branch_name, head_ref_name, git_checkout_cmd,
    listdir, mbind, Py_bind, mret, Py_ret.
  simpl. repeat (case_match; simplify_eq; simpl in *); intros; simplify_eq; simpl; auto.
Qed.

(** The script from line 111 on, with the world it leaves. *)
Lemma script_after_diff_world (w w1 w2 : World) (release : string) (result : ref) :
  last_release w = (Returned release, w1) →
  get_new_icon_since release w1 = (Returned result, w2) →
  let n := Z.of_nat (length (objs w2 result)) in
  ∃ (greenlight : bool) (reason : string),
    (greenlight = true ↔ manually_dispatched w2 ∨ (today w2 = 1 ∧ 100 ≤ n)) ∧
    run w = (if greenlight then 0 else 1,
             with_stdout (stdout w2 ++ [count_line n; reason; verdict_line greenlight]) w2).
Proof.
  intros Hrel Hdiff n.
  set (w3 := with_stdout (stdout w2 ++ [count_line n]) w2).
  destruct (is_workflow_dispatch_returns w3) as [manual Hman].
  destruct (is_workflow_dispatch_manual _ _ _ Hman) as [_ Hmanual].
  destruct (is_greenlight_world result manual 1 100 w3) as [reason Hworld].
  pose proof (is_greenlight_decision result manual 1 100 w3) as Hdec.
  destruct (is_greenlight result manual 1 100 w3) as [r w4] eqn:Hgreen.
  simpl in Hworld, Hdec. subst r w4.
  exists (manual || (bool_decide (today w2 = 1) &&
                     (100 <=? Z.of_nat (length (objs w2 result))))), reason.
  split; cycle 1.
  - unfold run, script.
    rewrite (bind_returned _ _ _ _ _ Hrel), (bind_returned _ _ _ _ _ Hdiff).
    erewrite bind_returned by reflexivity.
    erewrite bind_returned by reflexivity.
    fold (count_line n). fold w3.
    rewrite (bind_returned _ _ _ _ _ Hman).
    unfold DAY_THRESHOLD, NEW_THRESHOLD.
    rewrite (bind_returned _ _ _ _ _ Hgreen).
    erewrite bind_returned by reflexivity.
    unfold exit, raise, verdict_line, with_stdout. simpl.
    rewrite <-!app_assoc. simpl.
    by destruct (_ || _).
  - unfold manually_dispatched in *. simpl in *.
    rewrite orb_true_iff, andb_true_iff, bool_decide_eq_true, Z.leb_le.
    fold n. tauto.
Qed.

(** A run that ends with status 0 went through both stages. *)
Lemma run_zero_stages (w : World) :
  fst (run w) = 0 →
  ∃ (release : string) (result : ref) (w2 : World),
    last_release w = (Returned release, w) ∧
    get_new_icon_since release w = (Returned result, w2).
Proof.
  intros Hzero.
  destruct (last_release w) as [[release|e] w1] eqn:Hrel.
  2: { exfalso. revert Hzero. unfold run, script.
       rewrite (bind_raised _ _ _ _ _ Hrel).
       apply last_release_fault in Hrel. by destruct e. }
  pose proof (last_release_world _ _ _ Hrel) as ->.
  destruct (get_new_icon_since release w) as [[result|e] w2] eqn:Hdiff; [by eauto |].
  exfalso. revert Hzero. unfold run, script.
  rewrite (bind_returned _ _ _ _ _ Hrel), (bind_raised _ _ _ _ _ Hdiff).
  apply get_new_icon_since_fault in Hdiff. by destruct e.
Qed.

(** The whole run, when the repository is in order (HEAD on a branch, a
    working tree that holds nothing untracked or uncommitted, the icons
    directory present now and at the last release):
    the status is 0 exactly for a manual dispatch or, on the 1st of the
    month, for at least 100 names that are in the directory now and were
    not at the last release; otherwise it is 1. The run prints four lines:
    the checkout, the count, the reason and the verdict that goes with the
    status. *)
Theorem run_end_to_end (w : World) (release b : string) (current previous : list string)
    (hd : HEAD) :
  last_release w = (Returned release, w) →
  worktree (repo w) = Some current →
  head (repo w) = OnBranch b →
  heads (repo w) !! b = Some (Some current) →
  resolve (repo w) release = Some (hd, Some previous) →
  let n := Z.of_nat (size (list_to_set current ∖ list_to_set previous : gset string)) in
  (fst (run w) = 0 ↔ manually_dispatched w ∨ (today w = 1 ∧ 100 ≤ n)) ∧
  (fst (run w) = 0 ∨ fst (run w) = 1) ∧
  ∃ reason : string,
    stdout (snd (run w)) =
      stdout w ++ [ "Checking out version " +:+ release; count_line n; reason;
                    verdict_line (bool_decide (fst (run w) = 0)) ].
Proof.
  intros Hrel Hcur Hb Htree Hres n.
  pose proof (get_new_icon_since_run _ _ _ _ _ _ _ Hcur Hb Htree Hres) as Hdiff.
  destruct (script_after_diff_world _ _ _ _ _ Hrel Hdiff) as (greenlight & reason & Hiff & ->).
  simpl in Hiff. rewrite decide_True in Hiff by done.
  unfold manually_dispatched in *. simpl in *.
  split_and!.
  - split.
    + intros Hzero. destruct greenlight; [| done]. by apply Hiff.
    + intros Hyes. by assert (greenlight = true) as -> by (by apply Hiff).
  - destruct greenlight; auto.
  - exists reason. rewrite decide_True by done.
    rewrite <-app_assoc. simpl. by destruct greenlight.
Qed.

Lemma run_end_to_end_witness :
  let n := Z.of_nat (size (list_to_set ("a.svg" :: icons_added 100) ∖
                           list_to_set ["a.svg"] : gset string)) in
  (fst (run (world_release_day 100)) = 0 ↔
     manually_dispatched (world_release_day 100) ∨
     (today (world_release_day 100) = 1 ∧ 100 ≤ n)) ∧
  (fst (run (world_release_day 100)) = 0 ∨ fst (run (world_release_day 100)) = 1) ∧
  ∃ reason : string,
    stdout (snd (run (world_release_day 100))) =
      stdout (world_release_day 100) ++
        [ "Checking out version " +:+ "v2.11.0"; count_line n; reason;
          verdict_line (bool_decide (fst (run (world_release_day 100)) = 0)) ].
Proof.
  apply (run_end_to_end (world_release_day 100) "v2.11.0" "develop"
           ("a.svg" :: icons_added 100) ["a.svg"] (DetachedAt "v2.11.0"));
    by vm_compute.
Defined.

(** The verdict printed and the exit status agree: the last line a run
    prints is the greenlight verdict exactly when the status is 0, and a run
    whose last line is the refusal ends with status 1. A run that stops at
    an earlier stage prints neither verdict. *)
Theorem run_verdict_matches_status (w : World) :
  ∃ out : list string,
    stdout (snd (run w)) = stdout w ++ out ∧
    (fst (run w) = 0 ↔ last out = Some (verdict_line true)) ∧
    (last out = Some (verdict_line false) → fst (run w) = 1).
Proof.
  destruct (last_release w) as [[release|e] w1] eqn:Hrel.
  2: { exists []. pose proof (last_release_world _ _ _ Hrel) as ->.
       assert (run w = (1, w)) as ->.
       { unfold run, script. rewrite (bind_raised _ _ _ _ _ Hrel).
         apply last_release_fault in Hrel. by destruct e. }
       simpl. by rewrite app_nil_r. }
  pose proof (last_release_world _ _ _ Hrel) as ->.
  destruct (get_new_icon_since release w) as [[result|e] w2] eqn:Hdiff.
  2: { destruct (get_new_icon_since_frame _ _ _ _ Hdiff) as (_ & _ & Hout).
       assert (run w = (1, w2)) as ->.
       { unfold run, script.
         rewrite (bind_returned _ _ _ _ _ Hrel), (bind_raised _ _ _ _ _ Hdiff).
         apply get_new_icon_since_fault in Hdiff. by destruct e. }
       simpl. destruct Hout as [-> | ->].
       - exists []. by rewrite app_nil_r.
       - eexists. split; [done |]. simpl. split; [| done].
         split; [done |]. intros [= Heq]. }
  destruct (get_new_icon_since_frame _ _ _ _ Hdiff) as (_ & _ & Hout).
  assert (stdout w2 = stdout w ++ ["Checking out version " +:+ release]) as Hline.
  { destruct Hout as [Hsame | Hout]; [| done]. exfalso.
    revert Hdiff Hsame. unfold get_new_icon_since.
    intros (names & w0 & [_ ->]%listdir_returned & Hrun)%bind_inv.
    apply bind_inv in Hrun as ([] & wp & Hprint & Hrun).
    apply bind_inv in Hrun as (prev & w3 & Hscope & Hnew).
    apply git_checkout_returned in Hscope as (b & w1 & w1' & _ & Hco & Hbody & Hback).
    apply bind_inv in Hbody as (? & ? & [_ ->]%listdir_returned & Hset).
    unfold print in Hprint. unfold mret, Py_ret in Hset. unfold new_list in Hnew.
    unfold git_checkout_cmd in Hco, Hback.
    repeat (case_match; simplify_eq; simpl in * ).
    all: intros Habs; apply (f_equal length) in Habs;
      rewrite length_app in Habs; simpl in Habs; lia. }
  destruct (script_after_diff_world _ _ _ _ _ Hrel Hdiff) as (greenlight & reason & _ & ->).
  simpl. rewrite Hline, <-app_assoc. eexists. split; [done |].
  simpl. by destruct greenlight; simpl; split.
Qed.

(** With HEAD detached no run is greenlit, manual or not: the status is 1
    and no checkout is made. *)
Theorem run_detached_head_fails (w : World) (c : string) :
  head (repo w) = DetachedAt c →
  fst (run w) = 1 ∧ checkouts (repo (snd (run w))) = checkouts (repo w).
Proof.
  intros Hc.
  destruct (last_release w) as [[release|e] w1] eqn:Hrel.
  2: { pose proof (last_release_world _ _ _ Hrel) as ->.
       unfold run, script. rewrite (bind_raised _ _ _ _ _ Hrel).
       apply last_release_fault in Hrel. by destruct e. }
  pose proof (last_release_world _ _ _ Hrel) as ->.
  assert (∃ e w2, get_new_icon_since release w = (Raised e, w2) ∧
                  is_fault e ∧ repo w2 = repo w) as (e & w2 & Hdiff & He & Hrepo).
  { unfold get_new_icon_since.
    destruct (worktree (repo w)) as [names|] eqn:Hcur.
    - rewrite (bind_returned _ _ _ _ _ (listdir_icons _ _ Hcur)).
      erewrite bind_returned by reflexivity.
      erewrite bind_raised by (by apply (git_checkout_detached _ _ c)).
      by eexists _, _.
    - rewrite (bind_raised _ _ w FileNotFoundError w).
      + by eexists _, _.
      + unfold listdir. simpl. by rewrite Hcur. }
  unfold run, script.
  rewrite (bind_returned _ _ _ _ _ Hrel), (bind_raised _ _ _ _ _ Hdiff).
  simpl. rewrite Hrepo. by destruct e.
Qed.

Lemma run_detached_head_fails_witness :
  fst (run (with_repo (repo world_detached) world_manual)) = 1 ∧
  checkouts (repo (snd (run (with_repo (repo world_detached) world_manual)))) =
    checkouts (repo (with_repo (repo world_detached) world_manual)).
Proof.
  apply (run_detached_head_fails (with_repo (repo world_detached) world_manual) "4f2a9c1").
  reflexivity.
Defined.

(** What status 0 requires of the world the run starts in: a manual
    dispatch in the environment, or the 1st of the month with at least 100
    files in the icons directory. *)
Theorem run_zero_requires (w : World) :
  fst (run w) = 0 →
  manually_dispatched w ∨
  (today w = 1 ∧
   ∃ current : list string,
     worktree (repo w) = Some current ∧ 100 ≤ Z.of_nat (length current)).
Proof.
  intros Hzero.
  destruct (run_zero_stages w Hzero) as (release & result & w2 & Hrel & Hdiff).
  destruct (get_new_icon_since_frame _ _ _ _ Hdiff) as (Henv & Hday & _).
  destruct (get_new_icon_since_returned _ _ _ _ Hdiff)
    as (current & previous & _ & _ & Hcur & _ & _ & Hobjs).
  destruct (script_after_diff_world _ _ _ _ _ Hrel Hdiff) as (greenlight & reason & Hiff & Hrun).
  rewrite Hrun in Hzero. simpl in Hzero, Hiff.
  destruct greenlight; [| done].
  destruct Hiff as [Hiff _]. specialize (Hiff eq_refl).
  unfold manually_dispatched in *. rewrite Henv, Hday in Hiff.
  destruct Hiff as [? | [? Hcount]]; [by left | right].
  split; [done |]. exists current. split; [done |].
  rewrite Hobjs in Hcount.
  pose proof (difference_length current previous). lia.
Qed.

Lemma run_zero_requires_witness :
  manually_dispatched (world_release_day 100) ∨
  (today (world_release_day 100) = 1 ∧
   ∃ current : list string,
     worktree (repo (world_release_day 100)) = Some current ∧
     100 ≤ Z.of_nat (length current)).
Proof. apply (run_zero_requires (world_release_day 100)). by vm_compute. Defined.
